(** * Tweet symptom scorer: the [/analyze] handler of [app.py]

    A shallow embedding of the request handler [analyze] and the proofs of the
    properties its specification states.

    - Python floats are IEEE binary64 numbers: Rocq's primitive [float].
    - A pandas [DataFrame] is a finite map from column names to columns.
    - The handler runs in a writer-and-exception monad: the trace records the
      calls to the collaborators loaded at start-up (the CSV parser, the
      vectorizer, the classifier) and to the logger; an exception aborts the
      [try] block and is turned into the 500 response by the [except] clause. *)

From Stdlib Require Import ZArith List String Floats Sorting.Sorted Lia.
From stdpp Require Import base option list strings gmap sorting.

#[local] Set Warnings "-inexact-float,-register-all".
#[local] Open Scope Z_scope.

(** ** Python values *)

(** What a cell of the parsed table holds after [tolist()]: [None], a [bool],
    an [int], a [float] (a missing cell is the float NaN) or a [str]. *)
Inductive Cell : Type :=
  | CNone
  | CBool (b : bool)
  | CInt (n : Z)
  | CFloat (f : float)
  | CStr (s : string).

(** The exceptions the handler can meet. [LibraryError] stands for whatever
    pandas or scikit-learn raise. *)
Inductive exn : Type :=
  | KeyError (key : string)
  | IndexError
  | TypeError
  | OverflowError
  | LibraryError (msg : string).

(** JSON values, as [jsonify] and [json.dumps] emit them. *)
Inductive Json : Type :=
  | JNull
  | JBool (b : bool)
  | JInt (n : Z)
  | JFloat (f : float)
  | JString (s : string)
  | JArray (items : list Json)
  | JObject (fields : list (string * Json)).

(** ** Exceptions: [Exc A] is either a raised exception or a value *)

Definition Exc (A : Type) : Type := (exn + A)%type.

Abbreviation ok a := (@inr exn _ a).
Abbreviation raise e := (@inl exn _ e).
Definition bindE {A B} (m : Exc A) (k : A → Exc B) : Exc B :=
  match m with
  | inl e => inl e
  | inr a => k a
  end.

Notation "'let!' x ':=' m 'in' k" := (bindE m (λ x, k))
  (at level 10, x name, m at level 100, k at level 200).

(** ** Effects: what the handler does besides computing its response *)

Inductive Event : Type :=
  | EvReadCsv
  | EvTransform
  | EvPredict
  | EvLogDebug (payload : Json)
  | EvLogError (e : exn).

Definition M (A : Type) : Type := (list Event * Exc A)%type.

Definition ret {A} (a : A) : M A := ([], inr a).
Definition lift {A} (m : Exc A) : M A := ([], m).
Definition emit (ev : Event) : M unit := ([ev], inr tt).
Definition bindM {A B} (m : M A) (k : A → M B) : M B :=
  match m with
  | (t, inl e) => (t, inl e)
  | (t, inr a) => let '(t', r) := k a in (t ++ t', r)
  end.

Notation "'do!' x ':=' m 'in' k" := (bindM m (λ x, k))
  (at level 10, x name, m at level 100, k at level 200).

(** ** Python primitives used by the handler *)

(** [l[i]] for [i >= 0]. *)
Definition getitem {A} (l : list A) (i : nat) : Exc A :=
  match l !! i with
  | Some a => ok a
  | None => raise IndexError
  end.

(** [float(n)] for an [int]: rounded to the nearest binary64 number, ties to
    even; [OverflowError] when that number does not exist. *)
Definition float_of_int (n : Z) : Exc float :=
  let f := SF2Prim (binary_normalize prec emax n 0 false) in
  if PrimFloat.is_infinity f then raise OverflowError else ok f.

(** The right operand of [c * x] with [c] a float: [int] and [bool] are
    converted, [None] and [str] are a [TypeError]. *)
Definition to_float (x : Cell) : Exc float :=
  match x with
  | CInt n => float_of_int n
  | CBool b => ok (if b then 1 else 0)%float
  | CFloat f => ok f
  | CNone | CStr _ => raise TypeError
  end.

Definition float_mul (c : float) (x : Cell) : Exc float :=
  let! f := to_float x in ok (c * f)%float.

(** [bool(x)]. The float NaN is truthy, both zeros are falsy. *)
Definition truthy (x : Cell) : bool :=
  match x with
  | CNone => false
  | CBool b => b
  | CInt n => negb (n =? 0)
  | CFloat f => negb (f =? 0)%float
  | CStr s => negb (String.eqb s "")
  end.

(** [any(l)] on a list of strings. *)
Definition any (l : list string) : bool :=
  existsb (λ s, negb (String.eqb s "")) l.

(** [repr] of a list of strings without quotes or escapes in them. *)
Definition repr_list (l : list string) : string :=
  ("[" ++ String.concat ", " (map (λ s, "'" ++ s ++ "'") l) ++ "]")%string.

(** ** [list.sort(key=..., reverse=True)]

    The sort is stable and only compares keys with [<]. With [reverse=True]
    the list is reversed, sorted in ascending order and reversed again. *)
Section Sort.
Context {A K : Type} (key : A → K) (lt : K → K → bool).

Fixpoint insert_stable (x : A) (l : list A) : list A :=
  match l with
  | [] => [x]
  | h :: t => if lt (key h) (key x) then h :: insert_stable x t else x :: h :: t
  end.

Fixpoint stable_sort (l : list A) : list A :=
  match l with
  | [] => []
  | x :: t => insert_stable x (stable_sort t)
  end.

Definition sort_reverse (l : list A) : list A :=
  reverse (stable_sort (reverse l)).
End Sort.

(** ** pandas *)

Abbreviation DataFrame := (gmap string (list Cell)).

(** [pd.notnull] on one cell. *)
Definition notnull (c : Cell) : bool :=
  match c with
  | CNone => false
  | CFloat f => negb (PrimFloat.is_nan f)
  | _ => true
  end.

(** [df.where(cond, other)] keeps a cell where the condition holds and puts
    [other] elsewhere; here the condition is [pd.notnull(df)] and [other] is
    [None]. *)
Definition where_notnull (df : DataFrame) : DataFrame :=
  fmap (M := list) (λ c, if notnull c then c else CNone) <$> df.

(** [column in df.columns]. *)
Definition has_column (df : DataFrame) (column : string) : bool :=
  bool_decide (is_Some (df !! column)).

(** [df[column].tolist()]. *)
Definition column_tolist (df : DataFrame) (column : string) : Exc (list Cell) :=
  match df !! column with
  | Some l => ok l
  | None => raise (KeyError column)
  end.

(** ** HTTP *)

(** An uploaded file: werkzeug's [FileStorage]. *)
Record FileStorage : Type := {
  filename : string;
  stream : string
}.

(** [request.files], one file per field name. *)
Record Request : Type := {
  files : gmap string FileStorage
}.

(** [bool(file)] for a [FileStorage]: its file name is not empty. *)
Definition file_truthy (file : FileStorage) : bool :=
  negb (String.eqb (filename file) "").

Record Response : Type := {
  body : Json;
  status : Z;
  content_type : string
}.

(** [jsonify(obj), code]. *)
Definition jsonify (obj : Json) (code : Z) : Response :=
  {| body := obj; status := code; content_type := "application/json" |}.

Definition error_json (msg : string) : Json := JObject [("error"%string, JString msg)].

(** ** The handler *)

Definition symptom_labels : list string :=
  ["respiratory"; "fever"; "fatigue"; "pain"; "gastrointestinal"]%string.

Definition required_columns : list string :=
  ["tweetText"; "tweetURL"; "tweetAuthor"; "handle"; "geo"; "createdAt";
   "replyCount"; "quoteCount"; "retweetCount"; "likeCount"; "views";
   "bookmarkCount"]%string.

(** One dictionary of [results]. *)
Record Result : Type := {
  tweetText : Cell;
  tweetURL : Cell;
  tweetAuthor : Cell;
  handle : Cell;
  geo : Cell;
  createdAt : Cell;
  is_tb : bool;
  detected_symptoms : list string;
  importance_score : float;
  replyCount : Cell;
  quoteCount : Cell;
  retweetCount : Cell;
  likeCount : Cell;
  views : Cell;
  bookmarkCount : Cell
}.

Definition cell_json (c : Cell) : Json :=
  match c with
  | CNone => JNull
  | CBool b => JBool b
  | CInt n => JInt n
  | CFloat f => JFloat f
  | CStr s => JString s
  end.

Definition result_json (r : Result) : Json :=
  JObject
    [("tweetText", cell_json (tweetText r));
     ("tweetURL", cell_json (tweetURL r));
     ("tweetAuthor", cell_json (tweetAuthor r));
     ("handle", cell_json (handle r));
     ("geo", cell_json (geo r));
     ("createdAt", cell_json (createdAt r));
     ("is_tb", JBool (is_tb r));
     ("detected_symptoms", JArray (JString <$> detected_symptoms r));
     ("importance_score", JFloat (importance_score r));
     ("replyCount", cell_json (replyCount r));
     ("quoteCount", cell_json (quoteCount r));
     ("retweetCount", cell_json (retweetCount r));
     ("likeCount", cell_json (likeCount r));
     ("views", cell_json (views r));
     ("bookmarkCount", cell_json (bookmarkCount r))]%string.

Definition results_json (results : list Result) : Json :=
  JArray (result_json <$> results).


(** [[symptom_labels[j] for j, present in enumerate(symptom_presence)
      if present == 1]], with [j] the index of the head of [symptom_presence]. *)
Fixpoint detect_from (j : nat) (symptom_presence : list Z) : Exc (list string) :=
  match symptom_presence with
  | [] => ok []
  | present :: rest =>
      if present =? 1 then
        let! label := getitem symptom_labels j in
        let! labels := detect_from (S j) rest in
        ok (label :: labels)
      else detect_from (S j) rest
  end.

(** The columns of the table as the handler holds them, one list each. *)
Record Columns : Type := {
  tweet_urls : list Cell;
  tweet_authors : list Cell;
  handles : list Cell;
  geos : list Cell;
  created_at_dates : list Cell;
  reply_counts : list Cell;
  quote_counts : list Cell;
  retweet_counts : list Cell;
  like_counts : list Cell;
  views_list : list Cell;
  bookmarks : list Cell
}.

(** The float that [is_tb * 100] becomes when added to a float. *)
Definition tb_boost (is_tb : bool) : float := (if is_tb then 100 else 0)%float.

(** The body of the [for] loop at row [i]. *)
Definition row_result (cols : Columns) (predictions : list (list Z))
    (i : nat) (tweet : Cell) : Exc Result :=
  let! symptom_presence := getitem predictions i in
  let! detected := detect_from 0 symptom_presence in
  let tb := any detected in
  let! reply := getitem (reply_counts cols) i in
  let! s1 := float_mul 0.4 reply in
  let! retweet := getitem (retweet_counts cols) i in
  let! s2 := float_mul 0.3 retweet in
  let! like := getitem (like_counts cols) i in
  let! s3 := float_mul 0.2 like in
  let! view := getitem (views_list cols) i in
  let! s4 := float_mul 0.1 view in
  let score := (s1 + s2 + s3 + s4 + tb_boost tb)%float in
  let! url := getitem (tweet_urls cols) i in
  let! author := getitem (tweet_authors cols) i in
  let! hdl := getitem (handles cols) i in
  let! g := getitem (geos cols) i in
  let! created := getitem (created_at_dates cols) i in
  let! quote := getitem (quote_counts cols) i in
  let! bookmark := getitem (bookmarks cols) i in
  ok {| tweetText := tweet;
        tweetURL := url;
        tweetAuthor := author;
        handle := hdl;
        geo := if truthy g then g else CNone;
        createdAt := created;
        is_tb := tb;
        detected_symptoms := detected;
        importance_score := score;
        replyCount := reply;
        quoteCount := quote;
        retweetCount := retweet;
        likeCount := like;
        views := view;
        bookmarkCount := bookmark |}.

(** [for i, tweet in enumerate(tweet_texts): results.append(...)], with [i]
    the index of the head of [tweet_texts]. *)
Fixpoint rows_from (cols : Columns) (predictions : list (list Z))
    (i : nat) (tweet_texts : list Cell) : Exc (list Result) :=
  match tweet_texts with
  | [] => ok []
  | tweet :: rest =>
      let! r := row_result cols predictions i tweet in
      let! rs := rows_from cols predictions (S i) rest in
      ok (r :: rs)
  end.

Definition sort_results (results : list Result) : list Result :=
  sort_reverse importance_score PrimFloat.ltb results.

Definition no_file_response : Response :=
  jsonify (error_json "No file provided") 400.

Definition missing_columns_response : Response :=
  jsonify
    (error_json ("CSV file must contain the following columns: "
                 ++ repr_list required_columns)%string) 400.

Definition internal_error_response : Response :=
  jsonify (error_json "Internal server error") 500.

Definition ok_response (results : list Result) : Response :=
  {| body := results_json results;
     status := 200;
     content_type := "application/json; charset=utf-8" |}.

Section Handler.
(** The collaborators loaded once at start-up. *)
Context {Features : Type}.
Variable read_csv : string → Exc DataFrame.
Variable vectorizer_transform : list Cell → Exc Features.
Variable classifier_predict : Features → Exc (list (list Z)).

(** The twelve [tolist()] calls, in the order of the source. *)
Definition extract (df : DataFrame) : Exc (list Cell * Columns) :=
  let! tweet_texts := column_tolist df "tweetText" in
  let! urls := column_tolist df "tweetURL" in
  let! authors := column_tolist df "tweetAuthor" in
  let! hdls := column_tolist df "handle" in
  let! gs := column_tolist df "geo" in
  let! created := column_tolist df "createdAt" in
  let! replies := column_tolist df "replyCount" in
  let! quotes := column_tolist df "quoteCount" in
  let! retweets := column_tolist df "retweetCount" in
  let! likes := column_tolist df "likeCount" in
  let! vs := column_tolist df "views" in
  let! bms := column_tolist df "bookmarkCount" in
  ok (tweet_texts,
      {| tweet_urls := urls; tweet_authors := authors; handles := hdls;
         geos := gs; created_at_dates := created; reply_counts := replies;
         quote_counts := quotes; retweet_counts := retweets;
         like_counts := likes; views_list := vs; bookmarks := bms |}).

(** From the normalisation of the table to the end of the [for] loop: the
    list [results] before it is sorted, one dictionary per row, in row
    order. *)
Definition build_results (df : DataFrame) : M (list Result) :=
  let df := where_notnull df in
  do! extracted := lift (extract df) in
  let '(tweet_texts, cols) := extracted in
  do! _ := emit EvTransform in
  do! text_vector := lift (vectorizer_transform tweet_texts) in
  do! _ := emit EvPredict in
  do! predictions := lift (classifier_predict text_vector) in
  lift (rows_from cols predictions 0 tweet_texts).

(** The [try] block. [request.files.get('file')] is [None] or a
    [FileStorage]; [not file] holds for [None] and for a falsy file. *)
Definition analyze_try (request : Request) : M Response :=
  match files request !! "file"%string with
  | None => ret no_file_response
  | Some file =>
      if negb (file_truthy file) then ret no_file_response else
      do! _ := emit EvReadCsv in
      do! df := lift (read_csv (stream file)) in
      if negb (forallb (has_column df) required_columns)
      then ret missing_columns_response else
      do! results := build_results df in
      let results := sort_results results in
      do! _ := emit (EvLogDebug (results_json results)) in
      ret (ok_response results)
  end.

(** The handler: the [try] block and its [except Exception] clause. *)
Definition analyze (request : Request) : M Response :=
  match analyze_try request with
  | (t, inr response) => (t, inr response)
  | (t, inl e) => (t ++ [EvLogError e], inr internal_error_response)
  end.

(** [df] is the table parsed from the file the request uploads. *)
Definition parsed_table (request : Request) (df : DataFrame) : Prop :=
  ∃ file, files request !! "file"%string = Some file
          ∧ file_truthy file = true
          ∧ read_csv (stream file) = ok df.

(** [predictions] is what the classifier returns for the texts of [df]. *)
Definition predicted (df : DataFrame) (predictions : list (list Z)) : Prop :=
  ∃ tweet_texts text_vector,
    where_notnull df !! "tweetText"%string = Some tweet_texts
    ∧ vectorizer_transform tweet_texts = ok text_vector
    ∧ classifier_predict text_vector = ok predictions.
End Handler.

(** ** Notions the statements below are written with *)

(** The order the ascending sort establishes between neighbours. *)
Definition not_after {A K} (key : A → K) (lt : K → K → bool) (a b : A) : Prop :=
  lt (key b) (key a) = false.

(** The cell of row [i] in a column of the table. *)
Definition cell_at (df : DataFrame) (column : string) (i : nat) : option Cell :=
  df !! column ≫= λ l, l !! i.

(** [a >= b] on importance scores, and [==] with a given score. *)
Definition score_ge (a b : Result) : Prop :=
  (importance_score b <=? importance_score a)%float = true.

Definition has_score (s : float) (r : Result) : Prop :=
  (importance_score r =? s)%float = true.

(** The labels at the positions where the classifier's row holds a 1. *)
Definition labels_of (symptom_presence : list Z) : list string :=
  (filter (λ lb, lb.2 = 1) (zip symptom_labels symptom_presence)).*1.

(** What the loop body makes of row [i] of the normalised table [df], given
    the classifier's [predictions]: [r] is the dictionary of that row. *)
Record row_facts (df : DataFrame) (predictions : list (list Z))
    (i : nat) (r : Result) : Prop := {
  rf_tweetText : cell_at df "tweetText" i = Some (tweetText r);
  rf_tweetURL : cell_at df "tweetURL" i = Some (tweetURL r);
  rf_tweetAuthor : cell_at df "tweetAuthor" i = Some (tweetAuthor r);
  rf_handle : cell_at df "handle" i = Some (handle r);
  rf_createdAt : cell_at df "createdAt" i = Some (createdAt r);
  rf_replyCount : cell_at df "replyCount" i = Some (replyCount r);
  rf_quoteCount : cell_at df "quoteCount" i = Some (quoteCount r);
  rf_retweetCount : cell_at df "retweetCount" i = Some (retweetCount r);
  rf_likeCount : cell_at df "likeCount" i = Some (likeCount r);
  rf_views : cell_at df "views" i = Some (views r);
  rf_bookmarkCount : cell_at df "bookmarkCount" i = Some (bookmarkCount r);
  rf_geo : ∃ g, cell_at df "geo" i = Some g
                ∧ geo r = (if truthy g then g else CNone);
  rf_detected : ∃ symptom_presence,
      predictions !! i = Some symptom_presence
      ∧ detect_from 0 symptom_presence = ok (detected_symptoms r);
  rf_is_tb : is_tb r = any (detected_symptoms r);
  rf_score : ∃ reply retweet like view,
      to_float (replyCount r) = ok reply
      ∧ to_float (retweetCount r) = ok retweet
      ∧ to_float (likeCount r) = ok like
      ∧ to_float (views r) = ok view
      ∧ importance_score r
        = (0.4 * reply + 0.3 * retweet + 0.2 * like + 0.1 * view
           + tb_boost (is_tb r))%float
}.

(** The columns the handler holds are the columns of the table. *)
Record columns_of (df : DataFrame) (tweet_texts : list Cell) (cols : Columns)
  : Prop := {
  co_text : df !! "tweetText"%string = Some tweet_texts;
  co_url : df !! "tweetURL"%string = Some (tweet_urls cols);
  co_author : df !! "tweetAuthor"%string = Some (tweet_authors cols);
  co_handle : df !! "handle"%string = Some (handles cols);
  co_geo : df !! "geo"%string = Some (geos cols);
  co_created : df !! "createdAt"%string = Some (created_at_dates cols);
  co_reply : df !! "replyCount"%string = Some (reply_counts cols);
  co_quote : df !! "quoteCount"%string = Some (quote_counts cols);
  co_retweet : df !! "retweetCount"%string = Some (retweet_counts cols);
  co_like : df !! "likeCount"%string = Some (like_counts cols);
  co_views : df !! "views"%string = Some (views_list cols);
  co_bookmark : df !! "bookmarkCount"%string = Some (bookmarks cols)
}.

(** The four columns that enter the importance score. *)
Definition scored_columns : list string :=
  ["replyCount"; "retweetCount"; "likeCount"; "views"]%string.

(** The twelve required columns of [df] all have [n] cells. *)
Definition rectangular (df : DataFrame) (n : nat) : Prop :=
  ∀ column, column ∈ required_columns →
    ∃ l, df !! column = Some l ∧ length l = n.

(** Every 1 of a classifier row stands at the position of a label. *)
Definition ones_in_range (symptom_presence : list Z) : Prop :=
  1 ∉ drop (length symptom_labels) symptom_presence.

(** The events of a trace that are log records. *)
Definition is_log (ev : Event) : bool :=
  match ev with
  | EvLogDebug _ | EvLogError _ => true
  | _ => false
  end.

(** ** A concrete instance: tables, collaborators and requests *)

Module Demo.
#[local] Open Scope string_scope.

(** Three posts; the first has no [geo] and no [bookmarkCount]. *)
Definition table : DataFrame :=
  list_to_map
    [("tweetText", [CStr "hello"; CStr "cough"; CStr "bye"]);
     ("tweetURL", [CStr "u0"; CStr "u1"; CStr "u2"]);
     ("tweetAuthor", [CStr "ann"; CStr "bob"; CStr "cyd"]);
     ("handle", [CStr "@ann"; CStr "@bob"; CStr "@cyd"]);
     ("geo", [CFloat nan; CStr "Nairobi"; CStr "Kisumu"]);
     ("createdAt", [CStr "2024-01-01"; CStr "2024-01-02"; CStr "2024-01-03"]);
     ("replyCount", [CInt 0; CInt 10; CInt 0]);
     ("quoteCount", [CInt 7; CInt 1; CInt 0]);
     ("retweetCount", [CInt 0; CInt 5; CInt 0]);
     ("likeCount", [CInt 0; CInt 20; CInt 0]);
     ("views", [CInt 0; CInt 100; CInt 0]);
     ("bookmarkCount", [CFloat nan; CFloat 2; CFloat 0])].

(** The same posts with other quote and bookmark counts. *)
Definition table_quotes : DataFrame :=
  <["quoteCount" := [CInt 900; CInt 0; CInt 55]]>
    (<["bookmarkCount" := [CInt 1; CInt 2; CInt 3]]> table).

(** The same posts without the [geo] column. *)
Definition table_no_geo : DataFrame := delete "geo" table.

(** The same posts, the second without a reply count. *)
Definition table_gap : DataFrame :=
  <["replyCount" := [CFloat 0; CFloat nan; CFloat 0]]> table.

(** Two posts; the first has infinite counts of opposite signs. *)
Definition table_inf : DataFrame :=
  list_to_map
    [("tweetText", [CStr "hello"; CStr "bye"]);
     ("tweetURL", [CStr "u0"; CStr "u1"]);
     ("tweetAuthor", [CStr "ann"; CStr "bob"]);
     ("handle", [CStr "@ann"; CStr "@bob"]);
     ("geo", [CStr "Nairobi"; CStr "Kisumu"]);
     ("createdAt", [CStr "2024-01-01"; CStr "2024-01-02"]);
     ("replyCount", [CFloat infinity; CFloat 0]);
     ("quoteCount", [CInt 0; CInt 0]);
     ("retweetCount", [CFloat neg_infinity; CFloat 0]);
     ("likeCount", [CInt 0; CInt 0]);
     ("views", [CInt 0; CInt 0]);
     ("bookmarkCount", [CInt 0; CInt 0])].

(** A parser that knows five files. *)
Definition read_csv (content : string) : Exc DataFrame :=
  if String.eqb content "posts" then ok table
  else if String.eqb content "posts, other quotes" then ok table_quotes
  else if String.eqb content "posts, no geo" then ok table_no_geo
  else if String.eqb content "posts, gap" then ok table_gap
  else if String.eqb content "posts, inf" then ok table_inf
  else raise (LibraryError "ParserError").

(** A vectorizer that keeps the texts and a classifier that finds a
    respiratory symptom in the text [cough] and nothing elsewhere. *)
Definition vectorizer_transform (tweet_texts : list Cell) : Exc (list Cell) :=
  ok tweet_texts.

Definition classify (text : Cell) : list Z :=
  match text with
  | CStr s => if String.eqb s "cough" then [1; 0; 0; 0; 0] else [0; 0; 0; 0; 0]
  | _ => [0; 0; 0; 0; 0]
  end.

Definition classifier_predict (text_vector : list Cell) : Exc (list (list Z)) :=
  ok (classify <$> text_vector).

Definition analyze : Request → M Response :=
  analyze read_csv vectorizer_transform classifier_predict.

Definition upload (name content : string) : Request :=
  {| files := {[ "file" := {| filename := name; stream := content |} ]} |}.

Definition request : Request := upload "posts.csv" "posts".
Definition request_no_geo : Request := upload "posts.csv" "posts, no geo".
Definition request_inf : Request := upload "posts.csv" "posts, inf".
Definition request_empty : Request := {| files := ∅ |}.

(** The classifier's answer on the three posts. *)
Definition predictions : list (list Z) :=
  [[0; 0; 0; 0; 0]; [1; 0; 0; 0; 0]; [0; 0; 0; 0; 0]].

(** The dictionaries of the three posts. *)
Definition hello : Result :=
  {| tweetText := CStr "hello"; tweetURL := CStr "u0";
     tweetAuthor := CStr "ann"; handle := CStr "@ann"; geo := CNone;
     createdAt := CStr "2024-01-01"; is_tb := false;
     detected_symptoms := []; importance_score := 0;
     replyCount := CInt 0; quoteCount := CInt 7; retweetCount := CInt 0;
     likeCount := CInt 0; views := CInt 0; bookmarkCount := CNone |}.

Definition cough : Result :=
  {| tweetText := CStr "cough"; tweetURL := CStr "u1";
     tweetAuthor := CStr "bob"; handle := CStr "@bob"; geo := CStr "Nairobi";
     createdAt := CStr "2024-01-02"; is_tb := true;
     detected_symptoms := ["respiratory"]; importance_score := 119.5;
     replyCount := CInt 10; quoteCount := CInt 1; retweetCount := CInt 5;
     likeCount := CInt 20; views := CInt 100; bookmarkCount := CFloat 2 |}.

Definition bye : Result :=
  {| tweetText := CStr "bye"; tweetURL := CStr "u2";
     tweetAuthor := CStr "cyd"; handle := CStr "@cyd"; geo := CStr "Kisumu";
     createdAt := CStr "2024-01-03"; is_tb := false;
     detected_symptoms := []; importance_score := 0;
     replyCount := CInt 0; quoteCount := CInt 0; retweetCount := CInt 0;
     likeCount := CInt 0; views := CInt 0; bookmarkCount := CFloat 0 |}.

(** The response to [request]: the post with a symptom first, the two
    posts of score 0 in their row order. *)
Definition results : list Result := [cough; hello; bye].

Definition trace : list Event :=
  [EvReadCsv; EvTransform; EvPredict; EvLogDebug (results_json results)].



(** The response to [request_inf]: the first score is NaN. *)
Definition results_inf : list Result :=
  [ {| tweetText := CStr "hello"; tweetURL := CStr "u0";
       tweetAuthor := CStr "ann"; handle := CStr "@ann"; geo := CStr "Nairobi";
       createdAt := CStr "2024-01-01"; is_tb := false;
       detected_symptoms := []; importance_score := nan;
       replyCount := CFloat infinity; quoteCount := CInt 0;
       retweetCount := CFloat neg_infinity;
       likeCount := CInt 0; views := CInt 0; bookmarkCount := CInt 0 |};
    {| tweetText := CStr "bye"; tweetURL := CStr "u1";
       tweetAuthor := CStr "bob"; handle := CStr "@bob"; geo := CStr "Kisumu";
       createdAt := CStr "2024-01-02"; is_tb := false;
       detected_symptoms := []; importance_score := 0;
       replyCount := CFloat 0; quoteCount := CInt 0;
       retweetCount := CFloat 0;
       likeCount := CInt 0; views := CInt 0; bookmarkCount := CInt 0 |} ].

Definition trace_inf : list Event :=
  [EvReadCsv; EvTransform; EvPredict; EvLogDebug (results_json results_inf)].
End Demo.

(** ** A second instance: a vectorizer that can fail, and two more files *)

Module Strict.
#[local] Open Scope string_scope.

(** A vectorizer that raises on a text that is not a string. *)
Definition vectorizer_transform (tweet_texts : list Cell) : Exc (list Cell) :=
  if forallb (λ c, match c with CStr _ => true | _ => false end) tweet_texts
  then ok tweet_texts
  else raise (LibraryError "not a string").

(** The three posts, the second without a text. *)
Definition table_no_text : DataFrame :=
  <["tweetText" := [CStr "hello"; CFloat nan; CStr "bye"]]> Demo.table.

(** The three posts with one more column. *)
Definition table_lang : DataFrame :=
  <["lang" := [CStr "en"; CStr "sw"; CStr "en"]]> Demo.table.

Definition read_csv (content : string) : Exc DataFrame :=
  if String.eqb content "posts, no text" then ok table_no_text
  else if String.eqb content "posts, lang" then ok table_lang
  else Demo.read_csv content.

Definition analyze : Request → M Response :=
  analyze read_csv vectorizer_transform Demo.classifier_predict.

Definition request_no_text : Request := Demo.upload "posts.csv" "posts, no text".
Definition request_lang : Request := Demo.upload "posts.csv" "posts, lang".
End Strict.

(** * Proofs *)

(** ** Inversion of the two binds *)

Lemma bindE_ok {A B} (m : Exc A) (k : A → Exc B) (b : B) :
  bindE m k = inr b → ∃ a, m = inr a ∧ k a = inr b.
Proof. destruct m as [e|a]; simpl; [discriminate | eauto]. Qed.

Lemma bindM_ok {A B} (m : M A) (k : A → M B) (t : list Event) (b : B) :
  bindM m k = (t, inr b) →
  ∃ t1 a t2, m = (t1, inr a) ∧ k a = (t2, inr b) ∧ t = t1 ++ t2.
Proof.
  destruct m as [t1 [e|a]]; simpl; [discriminate |].
  destruct (k a) as [t2 r] eqn:Hk. intros [= <- ->]. eauto 6.
Qed.

Lemma getitem_ok {A} (l : list A) (i : nat) (a : A) :
  getitem l i = inr a ↔ l !! i = Some a.
Proof. unfold getitem. destruct (l !! i); simpl; split; congruence. Qed.

Ltac inv_bindE H :=
  let a := fresh "v" in
  let H1 := fresh "H" in
  apply bindE_ok in H as (a & H1 & H).

(** ** Order of binary64 numbers *)

Lemma SFcompare_antisym (x y : spec_float) :
  SFcompare y x = option_map CompOpp (SFcompare x y).
Proof.
  destruct x as [s1|s1| |s1 m1 e1], y as [s2|s2| |s2 m2 e2]; simpl;
    try (destruct s1; try destruct s2; reflexivity);
    try (destruct s2; reflexivity); try reflexivity.
  rewrite (Z.compare_antisym e1 e2).
  change (Pos.compare_cont Eq m2 m1) with (Pos.compare_cont (CompOpp Eq) m2 m1).
  rewrite <- (Pos.compare_cont_antisym m1 m2 Eq).
  destruct s1, s2, (e1 ?= e2); simpl; try reflexivity;
    destruct (Pos.compare_cont Eq m1 m2); reflexivity.
Qed.

Lemma SFcompare_eq_trans (x y z : spec_float) :
  SFcompare x z = Some Eq → SFcompare y z = Some Eq → SFcompare x y = Some Eq.
Proof.
  destruct x as [s1|s1| |s1 m1 e1], z as [s3|s3| |s3 m3 e3]; simpl;
    try discriminate;
    destruct y as [s2|s2| |s2 m2 e2]; simpl; try discriminate;
    try (destruct s1, s3; try discriminate; destruct s2;
         discriminate || reflexivity);
    try reflexivity.
  destruct s1, s3; try discriminate; destruct s2; try discriminate;
    destruct (Z.compare_spec e1 e3); try discriminate;
    destruct (Z.compare_spec e2 e3); try discriminate; subst;
    rewrite Z.compare_refl; intros H1 H2;
    injection H1 as H1; injection H2 as H2;
    try apply CompOpp_iff in H1; try apply CompOpp_iff in H2; simpl in *;
    apply Pos.compare_eq in H1, H2; subst;
    rewrite Pos.compare_cont_refl; reflexivity.
Qed.

Lemma SFcompare_None (x y : spec_float) :
  SFcompare x y = None → x = S754_nan ∨ y = S754_nan.
Proof.
  destruct x as [s1|s1| |s1 m1 e1], y as [s2|s2| |s2 m2 e2]; simpl;
    try discriminate; auto.
Qed.

Lemma is_nan_false (x : float) :
  PrimFloat.is_nan x = false → Prim2SF x ≠ S754_nan.
Proof.
  unfold PrimFloat.is_nan. rewrite FloatAxioms.eqb_spec. unfold SFeqb.
  intros H E. rewrite E in H. discriminate.
Qed.

(** [<] is asymmetric, also when a NaN is compared. *)
Lemma ltb_asym (x y : float) : (x <? y)%float = true → (y <? x)%float = false.
Proof.
  rewrite !ltb_spec. unfold SFltb.
  rewrite (SFcompare_antisym (Prim2SF x) (Prim2SF y)).
  destruct (SFcompare (Prim2SF x) (Prim2SF y)) as [[]|]; simpl; by intros.
Qed.

(** On numbers that are not NaN, [not (x < y)] is [y <= x]. *)
Lemma ltb_false_leb (x y : float) :
  PrimFloat.is_nan x = false → PrimFloat.is_nan y = false →
  (x <? y)%float = false → (y <=? x)%float = true.
Proof.
  intros Hx%is_nan_false Hy%is_nan_false.
  rewrite ltb_spec, leb_spec. unfold SFltb, SFleb.
  rewrite (SFcompare_antisym (Prim2SF x) (Prim2SF y)).
  destruct (SFcompare (Prim2SF x) (Prim2SF y)) as [[]|] eqn:E; simpl;
    intros; try done.
  apply SFcompare_None in E as [E|E]; contradiction.
Qed.

(** Two numbers equal ([==]) to a third are not ordered by [<]. *)
Lemma eqb_not_ltb (x y s : float) :
  (x =? s)%float = true → (y =? s)%float = true → (x <? y)%float = false.
Proof.
  rewrite !FloatAxioms.eqb_spec, ltb_spec. unfold SFeqb, SFltb.
  intros Hx Hy.
  rewrite (SFcompare_eq_trans (Prim2SF x) (Prim2SF y) (Prim2SF s)); [done | |].
  - by destruct (SFcompare (Prim2SF x) (Prim2SF s)) as [[]|].
  - by destruct (SFcompare (Prim2SF y) (Prim2SF s)) as [[]|].
Qed.

(** A number that is below ([<]) or not above another is never a NaN pair:
    [x >= y] fails as soon as one of them is NaN. *)
Lemma leb_nan_l (x : float) : (PrimFloat.nan <=? x)%float = false.
Proof. rewrite leb_spec. reflexivity. Qed.

Lemma leb_nan_r (x : float) : (x <=? PrimFloat.nan)%float = false.
Proof.
  rewrite leb_spec. unfold SFleb.
  change (Prim2SF PrimFloat.nan) with S754_nan.
  destruct (Prim2SF x) as [?|?| |? ? ?]; reflexivity.
Qed.

(** ** The stable sort *)

Section SortFacts.
Context {A K : Type} (key : A → K) (lt : K → K → bool).
Hypothesis lt_asym : ∀ x y, lt x y = true → lt y x = false.

#[local] Abbreviation not_after := (not_after key lt).

Lemma insert_stable_perm (x : A) (l : list A) :
  insert_stable key lt x l ≡ₚ x :: l.
Proof.
  induction l as [|h t IH]; simpl; [done |].
  destruct (lt (key h) (key x)); [| done].
  rewrite IH. apply Permutation_swap.
Qed.

Lemma stable_sort_perm (l : list A) : stable_sort key lt l ≡ₚ l.
Proof.
  induction l as [|x t IH]; simpl; [done |].
  by rewrite insert_stable_perm, IH.
Qed.

Lemma sort_reverse_perm (l : list A) : sort_reverse key lt l ≡ₚ l.
Proof.
  unfold sort_reverse.
  by rewrite reverse_Permutation, stable_sort_perm, reverse_Permutation.
Qed.

Lemma insert_stable_HdRel (a x : A) (l : list A) :
  not_after a x → HdRel not_after a l →
  HdRel not_after a (insert_stable key lt x l).
Proof.
  intros Hax Hal. destruct l as [|h t]; simpl; [by constructor |].
  destruct (lt (key h) (key x)); constructor; [by inversion Hal | done].
Qed.

Lemma insert_stable_Sorted (x : A) (l : list A) :
  Sorted not_after l → Sorted not_after (insert_stable key lt x l).
Proof.
  induction 1 as [|h t Hs IH Hh]; simpl; [by repeat constructor |].
  destruct (lt (key h) (key x)) eqn:E.
  - constructor; [done |].
    apply insert_stable_HdRel; [| done].
    unfold not_after. by apply lt_asym.
  - constructor; [by constructor |]. by constructor.
Qed.

Lemma stable_sort_Sorted (l : list A) : Sorted not_after (stable_sort key lt l).
Proof.
  induction l as [|x t IH]; simpl; [constructor |].
  by apply insert_stable_Sorted.
Qed.

(** With [reverse=True] no element is below ([<]) its successor. *)
Lemma sort_reverse_Sorted (l : list A) :
  Sorted (λ a b, lt (key a) (key b) = false) (sort_reverse key lt l).
Proof. apply (Sorted_reverse not_after), stable_sort_Sorted. Qed.

(** Stability, for a class [P] of keys no two of which are ordered. *)
Section Stable.
Variable P : K → Prop.
Context `{!∀ k, Decision (P k)}.
Hypothesis P_unordered : ∀ x y, P x → P y → lt x y = false.

Lemma insert_stable_filter (x : A) (l : list A) :
  filter (λ a, P (key a)) (insert_stable key lt x l)
  = filter (λ a, P (key a)) (x :: l).
Proof.
  induction l as [|h t IH]; simpl; [done |].
  destruct (lt (key h) (key x)) eqn:E; [| done].
  rewrite !filter_cons in *.
  destruct (decide (P (key h))) as [Hh|Hh];
    destruct (decide (P (key x))) as [Hx|Hx]; rewrite ?IH; try done.
  rewrite (P_unordered _ _ Hh Hx) in E. discriminate.
Qed.

Lemma stable_sort_filter (l : list A) :
  filter (λ a, P (key a)) (stable_sort key lt l) = filter (λ a, P (key a)) l.
Proof.
  induction l as [|x t IH]; simpl; [done |].
  rewrite insert_stable_filter, !filter_cons, IH. done.
Qed.

Lemma sort_reverse_filter (l : list A) :
  filter (λ a, P (key a)) (sort_reverse key lt l) = filter (λ a, P (key a)) l.
Proof.
  unfold sort_reverse.
  by rewrite filter_reverse, stable_sort_filter, filter_reverse,
    reverse_involutive.
Qed.
End Stable.
End SortFacts.



(** ** The loop *)

Lemma float_mul_ok (c : float) (x : Cell) (s : float) :
  float_mul c x = inr s → ∃ f, to_float x = inr f ∧ s = (c * f)%float.
Proof. unfold float_mul. intros H. inv_bindE H. injection H as <-. eauto. Qed.

Lemma column_tolist_ok (df : DataFrame) (column : string) (l : list Cell) :
  column_tolist df column = inr l → df !! column = Some l.
Proof. unfold column_tolist. destruct (df !! column); congruence. Qed.

Lemma cell_at_column (df : DataFrame) (column : string) (l : list Cell)
    (i : nat) (x : Cell) :
  df !! column = Some l → l !! i = Some x → cell_at df column i = Some x.
Proof. unfold cell_at. intros -> H. done. Qed.

Lemma extract_ok (df : DataFrame) (tweet_texts : list Cell) (cols : Columns) :
  extract df = inr (tweet_texts, cols) → columns_of df tweet_texts cols.
Proof.
  unfold extract. intros H. repeat inv_bindE H.
  injection H as <- <-.
  constructor; simpl; by apply column_tolist_ok.
Qed.

Lemma row_result_ok (df : DataFrame) (tweet_texts : list Cell) (cols : Columns)
    (predictions : list (list Z)) (i : nat) (tweet : Cell) (r : Result) :
  columns_of df tweet_texts cols →
  tweet_texts !! i = Some tweet →
  row_result cols predictions i tweet = inr r →
  row_facts df predictions i r.
Proof.
  intros Hc Ht H. unfold row_result in H.
  repeat inv_bindE H. injection H as <-.
  repeat match goal with
         | H : getitem _ _ = inr _ |- _ => apply getitem_ok in H
         | H : float_mul _ _ = inr _ |- _ =>
             apply float_mul_ok in H as (? & ? & ->)
         end.
  destruct Hc.
  constructor; simpl; eauto using cell_at_column.
  eauto 10.
Qed.

Lemma rows_from_ok (cols : Columns) (predictions : list (list Z))
    (tweet_texts : list Cell) (i0 : nat) (rows : list Result) :
  rows_from cols predictions i0 tweet_texts = inr rows →
  length rows = length tweet_texts
  ∧ ∀ k r, rows !! k = Some r →
      ∃ tweet, tweet_texts !! k = Some tweet
               ∧ row_result cols predictions (i0 + k) tweet = inr r.
Proof.
  revert i0 rows. induction tweet_texts as [|tweet rest IH]; simpl; intros i0 rows H.
  - injection H as <-. split; [done |]. intros k r Hk. by rewrite lookup_nil in Hk.
  - inv_bindE H. inv_bindE H. injection H as <-.
    destruct (IH _ _ H1) as [Hlen Hrows]. split; [simpl; by rewrite Hlen |].
    intros [|k] r Hk; simpl in Hk.
    + injection Hk as <-. exists tweet. by rewrite Nat.add_0_r.
    + destruct (Hrows _ _ Hk) as (tw & ? & ?). exists tw.
      by rewrite Nat.add_succ_r.
Qed.


(** ** The detected symptoms *)

Lemma detect_from_ok (j : nat) (symptom_presence : list Z) (detected : list string) :
  detect_from j symptom_presence = inr detected →
  detected
  = (filter (λ lb, lb.2 = 1) (zip (drop j symptom_labels) symptom_presence)).*1.
Proof.
  revert j detected.
  induction symptom_presence as [|present rest IH]; intros j detected H.
  - injection H as <-. by rewrite zip_with_nil_r.
  - simpl in H. destruct (Z.eqb_spec present 1) as [->|Hne].
    + inv_bindE H. inv_bindE H. injection H as <-.
      apply getitem_ok in H0. rewrite (drop_S _ _ _ H0). cbn [zip_with].
      rewrite filter_cons_True by done. rewrite fmap_cons. cbn [fst].
      f_equal. by apply IH.
    + rewrite (IH _ _ H).
      destruct (symptom_labels !! j) as [label|] eqn:E.
      * rewrite (drop_S _ _ _ E). cbn [zip_with].
        by rewrite filter_cons_False.
      * apply lookup_ge_None in E.
        rewrite !drop_ge by lia. done.
Qed.

Lemma detect_ok (symptom_presence : list Z) (detected : list string) :
  detect_from 0 symptom_presence = inr detected →
  detected = labels_of symptom_presence.
Proof. intros H. by rewrite (detect_from_ok _ _ _ H). Qed.

Lemma labels_of_sublist (symptom_presence : list Z) :
  labels_of symptom_presence `sublist_of` symptom_labels.
Proof.
  unfold labels_of. generalize symptom_labels. intros labels.
  revert symptom_presence.
  induction labels as [|label labels IH]; intros [|present rest];
    cbn [zip_with]; try apply sublist_nil_l.
  rewrite filter_cons. destruct (decide _); [rewrite fmap_cons |].
  - by apply sublist_skip.
  - by apply sublist_cons.
Qed.


Lemma any_labels (detected : list string) :
  detected ⊆ symptom_labels → any detected = true ↔ detected ≠ [].
Proof.
  intros Hsub. unfold any. destruct detected as [|label rest]; [done |].
  split; [done | intros _]. simpl.
  assert (Hl : label ∈ symptom_labels) by (apply Hsub; left).
  assert (Hne : label ≠ ""%string).
  { intros ->. revert Hl. unfold symptom_labels.
    rewrite !elem_of_cons, elem_of_nil. intros H. repeat destruct H as [H|H]; done. }
  apply String.eqb_neq in Hne. by rewrite Hne.
Qed.

(** ** JSON rendering loses nothing *)

Lemma cell_json_inj (x y : Cell) : cell_json x = cell_json y → x = y.
Proof. destruct x, y; simpl; congruence. Qed.

#[local] Instance JString_inj : Inj (=) (=) JString.
Proof. intros x y. congruence. Qed.

Lemma result_json_inj (r1 r2 : Result) : result_json r1 = result_json r2 → r1 = r2.
Proof.
  destruct r1, r2. unfold result_json. simpl. intros H.
  injection H as H1 H2 H3 H4 H5 H6 H7 H8 H9 H10 H11 H12 H13 H14 H15.
  apply cell_json_inj in H1, H2, H3, H4, H5, H6, H10, H11, H12, H13, H14, H15.
  apply (inj (fmap JString)) in H8. congruence.
Qed.

#[local] Instance result_json_Inj : Inj (=) (=) result_json.
Proof. intros x y. apply result_json_inj. Qed.

Lemma ok_response_inj (results1 results2 : list Result) :
  ok_response results1 = ok_response results2 → results1 = results2.
Proof.
  unfold ok_response, results_json. intros [= H].
  by apply (inj (fmap result_json)) in H.
Qed.

(** ** The handler *)

(** The handler's definitions, unfolded by name also where a section calls
    their instances by the same names. *)
Ltac unfold_build := unfold build_results.
Ltac unfold_try := unfold analyze_try.
Ltac unfold_analyze := unfold analyze.
Ltac unfold_parsed := unfold parsed_table.

Section HandlerFacts.
Context {Features : Type}.
Variable read_csv : string → Exc DataFrame.
Variable vectorizer_transform : list Cell → Exc Features.
Variable classifier_predict : Features → Exc (list (list Z)).

#[local] Abbreviation build_results :=
  (build_results vectorizer_transform classifier_predict).
#[local] Abbreviation analyze_try :=
  (analyze_try read_csv vectorizer_transform classifier_predict).
#[local] Abbreviation analyze :=
  (analyze read_csv vectorizer_transform classifier_predict).
#[local] Abbreviation parsed_table := (parsed_table read_csv).
#[local] Abbreviation predicted :=
  (predicted vectorizer_transform classifier_predict).

Lemma parsed_table_unique (request : Request) (df1 df2 : DataFrame) :
  parsed_table request df1 → parsed_table request df2 → df1 = df2.
Proof. intros (f1 & ? & ? & ?) (f2 & ? & ? & ?). congruence. Qed.

Lemma predicted_unique (df : DataFrame) (p1 p2 : list (list Z)) :
  predicted df p1 → predicted df p2 → p1 = p2.
Proof. intros (? & ? & ? & ? & ?) (? & ? & ? & ? & ?). congruence. Qed.

(** A run of [build_results] that returns went through the extraction, the
    vectorizer, the classifier and every row of the loop. *)
Lemma build_results_ok (df : DataFrame) (t : list Event) (rows : list Result) :
  build_results df = (t, inr rows) →
  ∃ tweet_texts cols predictions,
    columns_of (where_notnull df) tweet_texts cols
    ∧ predicted df predictions
    ∧ rows_from cols predictions 0 tweet_texts = inr rows
    ∧ t = [EvTransform; EvPredict].
Proof.
  unfold_build. unfold lift, emit. intros H.
  destruct (extract (where_notnull df)) as [e|[tweet_texts cols]] eqn:He;
    [discriminate |].
  simpl in H.
  destruct (vectorizer_transform tweet_texts) as [e|tv] eqn:Hv;
    [discriminate |].
  simpl in H.
  destruct (classifier_predict tv) as [e|predictions] eqn:Hp;
    [discriminate |].
  simpl in H. injection H as <- H.
  apply extract_ok in He.
  exists tweet_texts, cols, predictions.
  split; [done |]. split; [| by split].
  exists tweet_texts, tv. by destruct He.
Qed.

(** One dictionary per row, in row order. *)
Lemma build_results_rows (df : DataFrame) (predictions : list (list Z))
    (t : list Event) (rows : list Result) :
  build_results df = (t, inr rows) →
  predicted df predictions →
  (∀ i, is_Some (rows !! i) ↔ is_Some (cell_at (where_notnull df) "tweetText" i))
  ∧ ∀ i r, rows !! i = Some r → row_facts (where_notnull df) predictions i r.
Proof.
  intros (tweet_texts & cols & predictions' & Hc & Hp' & Hrows & _)%build_results_ok Hp.
  rewrite (predicted_unique _ _ _ Hp Hp'). clear Hp.
  apply rows_from_ok in Hrows as [Hlen Hrows]. split.
  - intros i. unfold cell_at. rewrite (co_text _ _ _ Hc). simpl.
    rewrite !lookup_lt_is_Some. by rewrite Hlen.
  - intros i r Hr. destruct (Hrows _ _ Hr) as (tweet & Ht & Hrow).
    by eapply row_result_ok.
Qed.

(** The three ways out of the [try] block without an exception. *)
Lemma analyze_try_ok (request : Request) (t : list Event) (response : Response) :
  analyze_try request = (t, inr response) →
  (response = no_file_response ∧ t = []
   ∧ ∀ file, files request !! "file"%string = Some file → file_truthy file = false)
  ∨ (∃ df, parsed_table request df
           ∧ forallb (has_column df) required_columns = false
           ∧ response = missing_columns_response ∧ t = [EvReadCsv])
  ∨ (∃ df t' rows, parsed_table request df
           ∧ forallb (has_column df) required_columns = true
           ∧ build_results df = (t', inr rows)
           ∧ response = ok_response (sort_results rows)
           ∧ t = EvReadCsv :: t'
                 ++ [EvLogDebug (results_json (sort_results rows))]).
Proof.
  unfold_try. unfold_parsed.
  unfold ret, lift, emit.
  destruct (files request !! "file"%string) as [file|] eqn:Hf.
  2: { intros [= Ht Hr]. subst. left. repeat split. discriminate. }
  destruct (file_truthy file) eqn:Htruthy; cbn [negb].
  2: { intros [= Ht Hr]. subst. left. repeat split. congruence. }
  destruct (read_csv (stream file)) as [e|df] eqn:Hread; [discriminate |].
  cbn [bindM app].
  destruct (forallb (has_column df) required_columns) eqn:Hcols; cbn [negb].
  2: { intros [= Ht Hr]. subst. right. left. exists df. eauto 10. }
  destruct (build_results df) as [t' [e|rows]] eqn:Hb;
    [discriminate |].
  cbn [bindM app]. intros [= Ht Hr]. subst. right. right. exists df, t', rows.
  split; [eauto |]. done.
Qed.

(** A 200 response comes from a complete run. *)
Lemma analyze_ok_inv (request : Request) (t : list Event) (results : list Result) :
  analyze request = (t, inr (ok_response results)) →
  ∃ df t' rows, parsed_table request df
    ∧ forallb (has_column df) required_columns = true
    ∧ build_results df = (t', inr rows)
    ∧ results = sort_results rows
    ∧ t = EvReadCsv :: t' ++ [EvLogDebug (results_json results)].
Proof.
  unfold_analyze.
  destruct (analyze_try request) as [t0 [e|response]] eqn:H; [discriminate |].
  intros [= <- ->].
  apply analyze_try_ok in H as [(? & _)|[(? & _ & _ & ? & _)|H]];
    [discriminate | discriminate |].
  destruct H as (df & t' & rows & ? & ? & ? & ->%ok_response_inj & ->).
  eauto 10.
Qed.
(** What a 200 response tells: the table was parsed, the classifier
    answered, the loop made one dictionary per row and the response carries
    these dictionaries, sorted. *)
Lemma analyze_run (request : Request) (t : list Event) (results : list Result) :
  analyze request = (t, inr (ok_response results)) →
  ∃ df predictions t' rows,
    parsed_table request df
    ∧ predicted df predictions
    ∧ build_results df = (t', inr rows)
    ∧ results = sort_results rows
    ∧ (∀ i, is_Some (rows !! i)
            ↔ is_Some (cell_at (where_notnull df) "tweetText" i))
    ∧ ∀ i r, rows !! i = Some r → row_facts (where_notnull df) predictions i r.
Proof.
  intros (df & t' & rows & Hdf & _ & Hb & -> & _)%analyze_ok_inv.
  destruct (build_results_ok _ _ _ Hb) as (? & ? & predictions & _ & Hp & _).
  destruct (build_results_rows _ _ _ _ Hb Hp) as [Hlen Hrows].
  exists df, predictions, t', rows. eauto 10.
Qed.

End HandlerFacts.

(** ** The sorted list and the rows *)

Lemma sort_results_perm (rows : list Result) : sort_results rows ≡ₚ rows.
Proof. apply sort_reverse_perm. Qed.

Lemma elem_of_sort_results (rows : list Result) (r : Result) :
  r ∈ sort_results rows → ∃ i, rows !! i = Some r.
Proof. rewrite sort_results_perm. apply list_elem_of_lookup. Qed.

Lemma cell_at_where (df : DataFrame) (column : string) (i : nat) :
  cell_at (where_notnull df) column i
  = (λ c, if notnull c then c else CNone) <$> cell_at df column i.
Proof.
  unfold cell_at, where_notnull. rewrite lookup_fmap.
  destruct (df !! column) as [l|]; simpl; [| done].
  by rewrite list_lookup_fmap.
Qed.






(** A relation that holds between the members of a sorted list can replace
    the order. *)
Lemma Sorted_weaken {A} (R R' : relation A) (l : list A) :
  (∀ a b, a ∈ l → b ∈ l → R a b → R' a b) → Sorted R l → Sorted R' l.
Proof.
  intros HR Hs. induction Hs as [|a l Hs IH Hd]; [constructor |].
  constructor.
  - apply IH. intros x y Hx Hy. apply HR; by right.
  - destruct Hd as [|b l Hab]; constructor.
    apply HR; [left | right; left | done].
Qed.

#[local] Instance has_score_dec (s : float) (r : Result) : Decision (has_score s r).
Proof. unfold has_score. apply _. Defined.

(** The sort puts no record before one of a greater score and keeps the
    records of equal score in their order. *)
Lemma sort_results_Sorted (rows : list Result) :
  Sorted (λ a b, (importance_score a <? importance_score b)%float = false)
    (sort_results rows).
Proof. apply sort_reverse_Sorted, ltb_asym. Qed.

Lemma sort_results_stable (rows : list Result) (s : float) :
  filter (has_score s) (sort_results rows) = filter (has_score s) rows.
Proof.
  exact (sort_reverse_filter importance_score PrimFloat.ltb
           (λ k, (k =? s)%float = true) (λ x y, eqb_not_ltb x y s) rows).
Qed.


(** * The properties of the specification *)

Section Claims.
Context {Features : Type}.
Variable read_csv : string → Exc DataFrame.
Variable vectorizer_transform : list Cell → Exc Features.
Variable classifier_predict : Features → Exc (list (list Z)).

#[local] Abbreviation build_results :=
  (build_results vectorizer_transform classifier_predict).
#[local] Abbreviation analyze_try :=
  (analyze_try read_csv vectorizer_transform classifier_predict).
#[local] Abbreviation analyze :=
  (analyze read_csv vectorizer_transform classifier_predict).
#[local] Abbreviation parsed_table := (parsed_table read_csv).
#[local] Abbreviation predicted :=
  (predicted vectorizer_transform classifier_predict).

(** C2. In every record of a 200 response, [is_tb] is true if and only if
    [detected_symptoms] is not empty. *)
Theorem is_tb_iff_detected (request : Request) (t : list Event)
    (results : list Result) :
  analyze request = (t, inr (ok_response results)) →
  ∀ r, r ∈ results → is_tb r = true ↔ detected_symptoms r ≠ [].
Proof.
  intros (df & predictions & t' & rows & _ & _ & _ & -> & _ & Hrows)%analyze_run r
    [i Hi]%elem_of_sort_results.
  destruct (Hrows _ _ Hi) as [_ _ _ _ _ _ _ _ _ _ _ _ (p & _ & Hd) Htb _].
  rewrite Htb. apply any_labels.
  rewrite (detect_ok _ _ Hd). apply sublist_subseteq, labels_of_sublist.
Qed.


(** C5. A request without a file gets the 400 response whose body is
    [{"error": "No file provided"}], and nothing else is done: no parser,
    vectorizer, classifier or logger call. *)
Theorem analyze_no_file (request : Request) :
  files request !! "file"%string = None →
  analyze request
  = ([], inr {| body := JObject [("error"%string, JString "No file provided")];
                status := 400;
                content_type := "application/json" |}).
Proof.
  intros H. unfold_analyze. unfold_try. by rewrite H.
Qed.

(** C6. When the uploaded file parses to a table that lacks one of the
    twelve required columns, the response is the 400 response whose message
    lists all twelve, and after the parser nothing is called: no record is
    made. *)
Theorem analyze_missing_column (request : Request) (df : DataFrame)
    (column : string) :
  parsed_table request df →
  column ∈ required_columns →
  df !! column = None →
  analyze request
  = ([EvReadCsv],
     inr {| body :=
              JObject
                [("error"%string,
                  JString "CSV file must contain the following columns: ['tweetText', 'tweetURL', 'tweetAuthor', 'handle', 'geo', 'createdAt', 'replyCount', 'quoteCount', 'retweetCount', 'likeCount', 'views', 'bookmarkCount']")];
            status := 400;
            content_type := "application/json" |}).
Proof.
  intros (file & Hf & Htruthy & Hread) Hin Hnone.
  assert (Hcols : forallb (has_column df) required_columns = false).
  { apply not_true_is_false. rewrite forallb_forall. intros Hall.
    apply list_elem_of_In in Hin. specialize (Hall _ Hin).
    unfold has_column in Hall. apply bool_decide_eq_true in Hall.
    rewrite Hnone in Hall. by destruct Hall. }
  unfold_analyze. unfold_try.
  rewrite Hf, Htruthy. cbn [negb]. unfold lift, emit, ret.
  rewrite Hread. cbn [bindM app]. rewrite Hcols. reflexivity.
Qed.



(** C4, amended. When no importance score of a 200 response is NaN, each
    record of the response has a score greater than or equal to the score of
    the next one, and the records of equal score are in the order of their
    rows. *)
Theorem sorted_by_score (request : Request) (df : DataFrame)
    (t : list Event) (results : list Result) :
  parsed_table request df →
  analyze request = (t, inr (ok_response results)) →
  (∀ r, r ∈ results → PrimFloat.is_nan (importance_score r) = false) →
  Sorted score_ge results
  ∧ ∃ t' rows, build_results df = (t', inr rows)
      ∧ results ≡ₚ rows
      ∧ ∀ s, filter (has_score s) results = filter (has_score s) rows.
Proof.
  intros Hdf (df' & predictions & t' & rows & Hdf' & _ & Hb & -> & _ & _)%analyze_run Hnan.
  rewrite <- (parsed_table_unique _ _ _ _ Hdf Hdf') in *.
  split.
  - eapply Sorted_weaken; [| apply sort_results_Sorted].
    intros a b Ha Hb' Hlt. apply ltb_false_leb; auto.
  - exists t', rows. split; [done |]. split; [apply sort_results_perm |].
    apply sort_results_stable.
Qed.

End Claims.

(** * The properties on the concrete instance *)

Lemma demo_parsed : parsed_table Demo.read_csv Demo.request Demo.table.
Proof.
  exists {| filename := "posts.csv"; stream := "posts" |}.
  repeat split; vm_compute; reflexivity.
Defined.

Lemma demo_predicted :
  predicted Demo.vectorizer_transform Demo.classifier_predict
    Demo.table Demo.predictions.
Proof.
  exists [CStr "hello"; CStr "cough"; CStr "bye"],
         [CStr "hello"; CStr "cough"; CStr "bye"].
  repeat split; vm_compute; reflexivity.
Defined.

Lemma demo_analyze :
  Demo.analyze Demo.request = (Demo.trace, inr (ok_response Demo.results)).
Proof. vm_compute. reflexivity. Defined.

Lemma is_tb_iff_detected_witness :
  Demo.analyze Demo.request = (Demo.trace, inr (ok_response Demo.results))
  ∧ ∀ r, r ∈ Demo.results → is_tb r = true ↔ detected_symptoms r ≠ [].
Proof.
  split; [exact demo_analyze |].
  exact (is_tb_iff_detected Demo.read_csv Demo.vectorizer_transform
           Demo.classifier_predict Demo.request Demo.trace Demo.results
           demo_analyze).
Defined.


Lemma analyze_no_file_witness :
  Demo.analyze Demo.request_empty
  = ([], inr {| body := JObject [("error"%string, JString "No file provided")];
                status := 400;
                content_type := "application/json" |}).
Proof.
  apply (analyze_no_file Demo.read_csv Demo.vectorizer_transform
           Demo.classifier_predict Demo.request_empty).
  vm_compute. reflexivity.
Defined.

Lemma analyze_missing_column_witness :
  Demo.analyze Demo.request_no_geo
  = ([EvReadCsv],
     inr {| body :=
              JObject
                [("error"%string,
                  JString "CSV file must contain the following columns: ['tweetText', 'tweetURL', 'tweetAuthor', 'handle', 'geo', 'createdAt', 'replyCount', 'quoteCount', 'retweetCount', 'likeCount', 'views', 'bookmarkCount']")];
            status := 400;
            content_type := "application/json" |}).
Proof.
  apply (analyze_missing_column Demo.read_csv Demo.vectorizer_transform
           Demo.classifier_predict Demo.request_no_geo Demo.table_no_geo
           "geo"%string).
  - exists {| filename := "posts.csv"; stream := "posts, no geo" |}.
    repeat split; vm_compute; reflexivity.
  - unfold required_columns. do 4 right. left.
  - vm_compute. reflexivity.
Defined.





Lemma demo_scores_not_nan :
  ∀ r, r ∈ Demo.results → PrimFloat.is_nan (importance_score r) = false.
Proof.
  intros r. unfold Demo.results. rewrite !elem_of_cons, elem_of_nil.
  intros [->|[->|[->|[]]]]; reflexivity.
Defined.

Lemma sorted_by_score_witness :
  Sorted score_ge Demo.results
  ∧ ∃ t' rows,
      build_results Demo.vectorizer_transform Demo.classifier_predict Demo.table
      = (t', inr rows)
      ∧ Demo.results ≡ₚ rows
      ∧ ∀ s, filter (has_score s) Demo.results = filter (has_score s) rows.
Proof.
  exact (sorted_by_score Demo.read_csv Demo.vectorizer_transform
           Demo.classifier_predict Demo.request Demo.table Demo.trace
           Demo.results demo_parsed demo_analyze demo_scores_not_nan).
Defined.

(** C4 as stated fails: the response to [Demo.request_inf] is a 200 response
    whose first score is NaN, and NaN is not greater than or equal to the
    score 0 that follows it. *)
Lemma sorted_by_score_counterexample :
  Demo.analyze Demo.request_inf
  = (Demo.trace_inf, inr (ok_response Demo.results_inf))
  ∧ ¬ Sorted score_ge Demo.results_inf.
Proof.
  split; [vm_compute; reflexivity |].
  intros H. apply Sorted_inv in H as [_ H]. apply HdRel_inv in H.
  vm_compute in H. discriminate.
Qed.

(** No other order of these two records is sorted either. *)
Lemma results_inf_never_sorted (l : list Result) :
  l ≡ₚ Demo.results_inf → ¬ Sorted score_ge l.
Proof.
  intros Hperm Hs.
  assert (Hl : length l = 2%nat) by (by rewrite Hperm).
  destruct l as [|a [|b [|c l]]]; try discriminate.
  apply Sorted_inv in Hs as [_ Hs]. apply HdRel_inv in Hs.
  unfold score_ge in Hs.
  assert (Ha : a ∈ Demo.results_inf) by (rewrite <- Hperm; left).
  assert (Hb : b ∈ Demo.results_inf) by (rewrite <- Hperm; right; left).
  assert (Hne : a ≠ b).
  { intros ->. assert (Hnd : NoDup [b; b]).
    { rewrite Hperm. unfold Demo.results_inf.
      apply NoDup_cons. split; [| apply NoDup_singleton].
      rewrite list_elem_of_singleton. discriminate. }
    apply NoDup_cons in Hnd as [Hnd _]. apply Hnd. left. }
  unfold Demo.results_inf in Ha, Hb.
  rewrite !elem_of_cons, elem_of_nil in Ha, Hb.
  destruct Ha as [->|[->|[]]], Hb as [->|[->|[]]]; try done;
    vm_compute in Hs; discriminate.
Qed.


(** * Further properties of the handler *)

(** ** The normalisation and the column check *)

Lemma where_notnull_lookup (df : DataFrame) (column : string) :
  where_notnull df !! column
  = fmap (M := list) (λ c, if notnull c then c else CNone) <$> df !! column.
Proof. unfold where_notnull. by rewrite lookup_fmap. Qed.



Lemma forallb_has_column (df : DataFrame) :
  forallb (has_column df) required_columns = true
  ↔ ∀ column, column ∈ required_columns → is_Some (df !! column).
Proof.
  rewrite forallb_forall. split; intros H column Hin.
  - apply list_elem_of_In in Hin. apply H in Hin.
    unfold has_column in Hin. by apply bool_decide_eq_true in Hin.
  - apply list_elem_of_In in Hin. apply H in Hin.
    unfold has_column. by apply bool_decide_eq_true.
Qed.

(** After the column check the twelve lookups succeed. *)
Lemma extract_total (df : DataFrame) :
  forallb (has_column df) required_columns = true →
  ∃ tweet_texts cols, extract (where_notnull df) = ok (tweet_texts, cols).
Proof.
  intros H. rewrite forallb_has_column in H.
  assert (Hcol : ∀ column, column ∈ required_columns →
            ∃ l, column_tolist (where_notnull df) column = ok l).
  { intros column [l Hl]%H. unfold column_tolist.
    rewrite where_notnull_lookup, Hl. simpl. eauto. }
  unfold extract, required_columns in *.
  repeat match goal with
  | |- context [column_tolist (where_notnull df) ?c] =>
      let l := fresh "l" in
      let E := fresh "E" in
      destruct (Hcol c) as [l E];
      [ rewrite !elem_of_cons; tauto | rewrite E; cbn [bindE] ]
  end.
  eauto.
Qed.

(** The column check is exactly what the twelve column lookups need: they all
    succeed on the normalised table when the check passes, and one of them
    raises when it does not. *)
Theorem extract_guarded (df : DataFrame) :
  forallb (has_column df) required_columns = true
  ↔ ∃ tweet_texts cols, extract (where_notnull df) = ok (tweet_texts, cols).
Proof.
  split; [apply extract_total |].
  intros (tweet_texts & cols & H). apply extract_ok in H.
  apply forallb_has_column. intros column Hin.
  assert (Hw : is_Some (where_notnull df !! column)).
  { unfold required_columns in Hin. rewrite !elem_of_cons, elem_of_nil in Hin.
    destruct H. repeat destruct Hin as [->|Hin]; try done; eauto. }
  rewrite where_notnull_lookup in Hw. by apply fmap_is_Some in Hw.
Qed.

(** ** Responses, failures and the log *)

Section Outcomes.
Context {Features : Type}.
Variable read_csv : string → Exc DataFrame.
Variable vectorizer_transform : list Cell → Exc Features.
Variable classifier_predict : Features → Exc (list (list Z)).

#[local] Abbreviation build_results :=
  (build_results vectorizer_transform classifier_predict).
#[local] Abbreviation analyze_try :=
  (analyze_try read_csv vectorizer_transform classifier_predict).
#[local] Abbreviation analyze :=
  (analyze read_csv vectorizer_transform classifier_predict).
#[local] Abbreviation parsed_table := (parsed_table read_csv).
#[local] Abbreviation predicted :=
  (predicted vectorizer_transform classifier_predict).

(** The handler always answers: with what the [try] block returned, or with
    the 500 response after logging the exception. *)
Lemma analyze_cases (request : Request) :
  ∃ t response,
    analyze request = (t, inr response)
    ∧ (analyze_try request = (t, inr response)
       ∨ ∃ t0 e, analyze_try request = (t0, inl e)
                 ∧ t = t0 ++ [EvLogError e]
                 ∧ response = internal_error_response).
Proof.
  unfold_analyze. destruct (analyze_try request) as [t [e|response]] eqn:H.
  - exists (t ++ [EvLogError e]), internal_error_response. eauto 10.
  - exists t, response. eauto.
Qed.

(** The trace of the [try] block holds no log record when it raises, and no
    log record but the last when it returns. *)
Lemma analyze_try_trace (request : Request) (t : list Event) (r : Exc Response) :
  analyze_try request = (t, r) →
  match r with
  | inl _ => filter is_log t = []
  | inr response =>
      (status response = 400 ∧ filter is_log t = [])
      ∨ (status response = 200
         ∧ ∃ t0, t = t0 ++ [EvLogDebug (body response)] ∧ filter is_log t0 = [])
  end.
Proof.
  unfold_try. unfold ret, lift, emit.
  destruct (files request !! "file"%string) as [file|];
    [| intros [= <- <-]; by left].
  destruct (file_truthy file); cbn [negb]; [| intros [= <- <-]; by left].
  destruct (read_csv (stream file)) as [e|df]; [by intros [= <- <-] |].
  cbn [bindM app].
  destruct (forallb (has_column df) required_columns); cbn [negb];
    [| intros [= <- <-]; by left].
  destruct (build_results df) as [t' [e|rows]] eqn:Hb.
  - intros [= <- <-]. revert Hb. unfold_build. unfold lift, emit.
    destruct (extract (where_notnull df)) as [e1|[tweet_texts cols]];
      [by intros [= <- <-] |].
    cbn [bindM app].
    destruct (vectorizer_transform tweet_texts) as [e2|tv];
      [by intros [= <- <-] |].
    cbn [bindM app].
    destruct (classifier_predict tv) as [e3|predictions];
      [by intros [= <- <-] |].
    cbn [bindM app]. by intros [= <- _].
  - apply build_results_ok in Hb as (_ & _ & _ & _ & _ & _ & ->).
    cbn [bindM app]. intros [= <- <-]. right. split; [done |].
    by exists [EvReadCsv; EvTransform; EvPredict].
Qed.

(** Every response is one of four: the two 400 responses, the 500 response,
    or a 200 response whose body is the array of the records. *)
Theorem analyze_response_shape (request : Request) (t : list Event)
    (response : Response) :
  analyze request = (t, inr response) →
  response = no_file_response
  ∨ response = missing_columns_response
  ∨ response = internal_error_response
  ∨ ∃ results, response = ok_response results.
Proof.
  destruct (analyze_cases request) as (t' & response' & H & Hc).
  rewrite H. intros [= <- <-].
  destruct Hc as [Hc|(t0 & e & _ & _ & ->)]; [| tauto].
  apply analyze_try_ok in Hc
    as [(-> & _)|[(df & _ & _ & -> & _)|(df & t0 & rows & _ & _ & _ & -> & _)]];
    eauto 10.
Qed.

(** What is logged: on a 200 response one debug record, last in the trace,
    whose payload is the body of the response; on a 500 response one error
    record, last in the trace; on a 400 response nothing. *)
Theorem analyze_log (request : Request) (t : list Event) (response : Response) :
  analyze request = (t, inr response) →
  (status response = 200 → filter is_log t = [EvLogDebug (body response)]
                           ∧ last t = Some (EvLogDebug (body response)))
  ∧ (status response = 500 → ∃ e, filter is_log t = [EvLogError e]
                                  ∧ last t = Some (EvLogError e))
  ∧ (status response = 400 → filter is_log t = []).
Proof.
  destruct (analyze_cases request) as (t' & response' & H & Hc).
  rewrite H. intros [= <- <-].
  destruct Hc as [Hc|(t0 & e & Hc & -> & ->)];
    apply analyze_try_trace in Hc.
  - destruct Hc as [[Hs Hl]|(Hs & t0 & -> & Hl)]; rewrite Hs.
    + repeat split; intros; done.
    + split; [| split]; [intros _ | done | done].
      by rewrite filter_app, Hl, last_snoc.
  - split; [| split]; [done | intros _ | done].
    exists e. by rewrite filter_app, Hc, last_snoc.
Qed.

(** A file part without a file name counts as no file. *)
Theorem analyze_empty_filename (request : Request) (file : FileStorage) :
  files request !! "file"%string = Some file →
  filename file = ""%string →
  analyze request
  = ([], inr {| body := JObject [("error"%string, JString "No file provided")];
                status := 400;
                content_type := "application/json" |}).
Proof.
  intros Hf Hn. unfold_analyze. unfold_try.
  by rewrite Hf; unfold file_truthy; rewrite Hn.
Qed.

(** When the parser raises, the exception is logged, the response is the 500
    response and neither the vectorizer nor the classifier is called. *)
Theorem analyze_parser_failure (request : Request) (file : FileStorage) (e : exn) :
  files request !! "file"%string = Some file →
  file_truthy file = true →
  read_csv (stream file) = inl e →
  analyze request
  = ([EvReadCsv; EvLogError e],
     inr {| body := JObject [("error"%string, JString "Internal server error")];
            status := 500;
            content_type := "application/json" |}).
Proof.
  intros Hf Ht Hr. unfold_analyze. unfold_try. unfold lift, emit.
  by rewrite Hf, Ht; cbn [negb bindM app]; rewrite Hr.
Qed.

(** The vectorizer is given the normalised text column; when it raises, the
    classifier is not called, and when the classifier raises no row is
    processed: both end in the 500 response. *)
Theorem analyze_model_failure (request : Request) (df : DataFrame)
    (tweet_texts : list Cell) :
  parsed_table request df →
  forallb (has_column df) required_columns = true →
  where_notnull df !! "tweetText"%string = Some tweet_texts →
  (∀ e, vectorizer_transform tweet_texts = inl e →
     analyze request
     = ([EvReadCsv; EvTransform; EvLogError e], inr internal_error_response))
  ∧ (∀ text_vector e,
       vectorizer_transform tweet_texts = ok text_vector →
       classifier_predict text_vector = inl e →
       analyze request
       = ([EvReadCsv; EvTransform; EvPredict; EvLogError e],
          inr internal_error_response)).
Proof.
  intros (file & Hf & Ht & Hr) Hcols Htt.
  destruct (extract_total df Hcols) as (tt' & cols & Hex).
  assert (tt' = tweet_texts) as ->.
  { apply extract_ok in Hex. destruct Hex. congruence. }
  split.
  - intros e Hv. unfold_analyze. unfold_try. unfold_build. unfold lift, emit.
    rewrite Hf, Ht. cbn [negb]. rewrite Hr. cbn [bindM app].
    rewrite Hcols. cbn [negb]. rewrite Hex. cbn [bindM app].
    rewrite Hv. reflexivity.
  - intros tv e Hv Hc. unfold_analyze. unfold_try. unfold_build.
    unfold lift, emit.
    rewrite Hf, Ht. cbn [negb]. rewrite Hr. cbn [bindM app].
    rewrite Hcols. cbn [negb]. rewrite Hex. cbn [bindM app].
    rewrite Hv. cbn [bindM app]. rewrite Hc. reflexivity.
Qed.
End Outcomes.

(** ** The detection of the labels *)

Lemma detect_from_spec (j : nat) (symptom_presence : list Z) :
  (1 ∉ drop (length symptom_labels - j) symptom_presence →
   detect_from j symptom_presence
   = ok (filter (λ lb, lb.2 = 1)
           (zip (drop j symptom_labels) symptom_presence)).*1)
  ∧ (1 ∈ drop (length symptom_labels - j) symptom_presence →
     detect_from j symptom_presence = raise IndexError).
Proof.
  revert j. induction symptom_presence as [|present rest IH]; intros j.
  { rewrite drop_nil. split; [intros _ | by intros ?%elem_of_nil].
    by rewrite zip_with_nil_r. }
  cbn [detect_from].
  destruct (symptom_labels !! j) as [label|] eqn:El.
  - pose proof (lookup_lt_Some _ _ _ El) as Hlt.
    replace (length symptom_labels - j)%nat
      with (S (length symptom_labels - S j)) by lia.
    cbn [drop]. rewrite (drop_S _ _ _ El). cbn [zip_with].
    destruct (IH (S j)) as [IHok IHraise].
    unfold getitem. rewrite El.
    destruct (Z.eqb_spec present 1) as [->|Hne].
    + split; intros H.
      * rewrite (IHok H). cbn [bindE]. by rewrite filter_cons_True.
      * by rewrite (IHraise H).
    + rewrite filter_cons_False by done. by split.
  - pose proof (lookup_ge_None_1 _ _ El) as Hge.
    replace (length symptom_labels - j)%nat with 0%nat by lia.
    rewrite drop_0, (drop_ge symptom_labels j) by done.
    destruct (IH (S j)) as [IHok IHraise].
    replace (length symptom_labels - S j)%nat with 0%nat in * by lia.
    rewrite drop_0, (drop_ge symptom_labels (S j)) in * by lia.
    unfold getitem. rewrite El. rewrite elem_of_cons.
    destruct (Z.eqb_spec present 1) as [->|Hne].
    + split; [| done]. intros H. exfalso. apply H. by left.
    + split; intros H.
      * apply IHok. intros Hin. apply H. by right.
      * apply IHraise. by destruct H as [<-|H].
Qed.

(** A classifier row is turned into labels exactly when each of its 1s
    stands at one of the five positions; a 1 further right raises
    [IndexError]; other values there, and any value but 1 anywhere, are
    passed over. *)
Theorem detect_from_range (symptom_presence : list Z) :
  (ones_in_range symptom_presence →
   detect_from 0 symptom_presence = ok (labels_of symptom_presence))
  ∧ (¬ ones_in_range symptom_presence →
     detect_from 0 symptom_presence = raise IndexError).
Proof.
  destruct (detect_from_spec 0 symptom_presence) as [Hok Hraise].
  rewrite Nat.sub_0_r in *. unfold ones_in_range. split; [done |].
  intros H. apply Hraise.
  by destruct (decide (1 ∈ drop (length symptom_labels) symptom_presence)).
Qed.

(** ** Orders on the scores *)

Lemma SFltb_false_trans (x y z : spec_float) :
  x ≠ S754_nan → y ≠ S754_nan → z ≠ S754_nan →
  SFltb x y = false → SFltb y z = false → SFltb x z = false.
Proof.
  unfold SFltb.
  destruct x as [s1|s1| |s1 m1 e1], y as [s2|s2| |s2 m2 e2],
           z as [s3|s3| |s3 m3 e3];
    try congruence; intros _ _ _; simpl;
    try (destruct s1; try destruct s2; try destruct s3; simpl; congruence).
  destruct s1, s2, s3; simpl; try congruence;
    change (Pos.compare_cont Eq) with Pos.compare;
    destruct (Z.compare_spec e1 e2), (Z.compare_spec e2 e3),
             (Z.compare_spec e1 e3);
    simpl; try congruence; try lia; subst;
    destruct (Pos.compare_spec m1 m2), (Pos.compare_spec m2 m3),
             (Pos.compare_spec m1 m3);
    simpl; try congruence; try lia.
Qed.

(** [>=] on scores that are not NaN is transitive. *)
Lemma score_ge_trans (a b c : Result) :
  PrimFloat.is_nan (importance_score a) = false →
  PrimFloat.is_nan (importance_score b) = false →
  PrimFloat.is_nan (importance_score c) = false →
  (importance_score a <? importance_score b)%float = false →
  (importance_score b <? importance_score c)%float = false →
  (importance_score a <? importance_score c)%float = false.
Proof.
  intros Ha%is_nan_false Hb%is_nan_false Hc%is_nan_false.
  rewrite !ltb_spec. by apply SFltb_false_trans.
Qed.

Lemma StronglySorted_lookup {A} (R : relation A) (l : list A) :
  StronglySorted R l →
  ∀ i j a b, (i < j)%nat → l !! i = Some a → l !! j = Some b → R a b.
Proof.
  induction 1 as [|x l Hs IH Hall]; intros i j a b Hij Hi Hj.
  - by rewrite lookup_nil in Hi.
  - destruct j as [|j]; [lia |]. destruct i as [|i]; simpl in *.
    + injection Hi as <-. rewrite Forall_forall in Hall.
      apply Hall. by eapply list_elem_of_lookup_2.
    + apply (IH i j); [lia | done | done].
Qed.

(** ** When the loop succeeds *)

(** Membership in a list that is written out. *)
Ltac member :=
  unfold scored_columns, required_columns; rewrite !elem_of_cons; tauto.


Lemma rows_from_total (cols : Columns) (predictions : list (list Z))
    (tweet_texts : list Cell) (i0 : nat) :
  (∀ k tweet, tweet_texts !! k = Some tweet →
     ∃ r, row_result cols predictions (i0 + k) tweet = ok r) →
  ∃ rows, rows_from cols predictions i0 tweet_texts = ok rows.
Proof.
  revert i0. induction tweet_texts as [|tweet rest IH]; intros i0 H.
  - by exists [].
  - cbn [rows_from]. destruct (H 0%nat tweet eq_refl) as [r Hr].
    rewrite Nat.add_0_r in Hr. rewrite Hr. cbn [bindE].
    destruct (IH (S i0)) as [rows Hrows].
    { intros k tw Hk. rewrite Nat.add_succ_l, <- Nat.add_succ_r.
      by apply (H (S k)). }
    rewrite Hrows. cbn [bindE]. eauto.
Qed.

Lemma cell_at_lookup (df : DataFrame) (column : string) (l : list Cell)
    (i : nat) (x : Cell) :
  df !! column = Some l → cell_at df column i = Some x → l !! i = Some x.
Proof. unfold cell_at. by intros ->. Qed.

(** A row whose classifier row is in range and whose four scored cells are
    numbers is turned into a dictionary, whatever its other cells hold. *)
Lemma row_result_total (df : DataFrame) (tweet_texts : list Cell)
    (cols : Columns) (predictions : list (list Z)) (i : nat) (tweet : Cell)
    (symptom_presence : list Z) :
  columns_of df tweet_texts cols →
  (∀ column, column ∈ required_columns → is_Some (cell_at df column i)) →
  predictions !! i = Some symptom_presence →
  ones_in_range symptom_presence →
  (∀ column, column ∈ scored_columns →
     ∃ x f, cell_at df column i = Some x ∧ to_float x = ok f) →
  ∃ r, row_result cols predictions i tweet = ok r.
Proof.
  intros Hc Hcells Hp Hrange Hscored.
  assert (Hreq : ∀ column l, column ∈ required_columns →
            df !! column = Some l → ∃ x, l !! i = Some x).
  { intros column l [x Hx]%Hcells Hl. exists x. by eapply cell_at_lookup. }
  assert (Hsc : ∀ column l, column ∈ scored_columns →
            df !! column = Some l → ∃ x f, l !! i = Some x ∧ to_float x = ok f).
  { intros column l (x & f & Hx & Hf)%Hscored Hl. exists x, f.
    split; [by eapply cell_at_lookup | done]. }
  destruct Hc.
  destruct (Hsc "replyCount"%string _ ltac:(member) co_reply0)
    as (x1 & f1 & E1 & F1).
  destruct (Hsc "retweetCount"%string _ ltac:(member) co_retweet0)
    as (x2 & f2 & E2 & F2).
  destruct (Hsc "likeCount"%string _ ltac:(member) co_like0)
    as (x3 & f3 & E3 & F3).
  destruct (Hsc "views"%string _ ltac:(member) co_views0)
    as (x4 & f4 & E4 & F4).
  destruct (Hreq "tweetURL"%string _ ltac:(member) co_url0) as [y1 G1].
  destruct (Hreq "tweetAuthor"%string _ ltac:(member) co_author0) as [y2 G2].
  destruct (Hreq "handle"%string _ ltac:(member) co_handle0) as [y3 G3].
  destruct (Hreq "geo"%string _ ltac:(member) co_geo0) as [y4 G4].
  destruct (Hreq "createdAt"%string _ ltac:(member) co_created0) as [y5 G5].
  destruct (Hreq "quoteCount"%string _ ltac:(member) co_quote0) as [y6 G6].
  destruct (Hreq "bookmarkCount"%string _ ltac:(member) co_bookmark0)
    as [y7 G7].
  unfold row_result, getitem, float_mul.
  rewrite Hp. cbn [bindE].
  rewrite (proj1 (detect_from_spec 0 symptom_presence))
    by (by rewrite Nat.sub_0_r).
  cbn [bindE].
  rewrite E1. cbn [bindE]. rewrite F1. cbn [bindE].
  rewrite E2. cbn [bindE]. rewrite F2. cbn [bindE].
  rewrite E3. cbn [bindE]. rewrite F3. cbn [bindE].
  rewrite E4. cbn [bindE]. rewrite F4. cbn [bindE].
  rewrite G1, G2, G3, G4, G5, G6, G7. cbn [bindE]. eauto.
Qed.

Section Rows.
Context {Features : Type}.
Variable read_csv : string → Exc DataFrame.
Variable vectorizer_transform : list Cell → Exc Features.
Variable classifier_predict : Features → Exc (list (list Z)).

#[local] Abbreviation build_results :=
  (build_results vectorizer_transform classifier_predict).
#[local] Abbreviation analyze_try :=
  (analyze_try read_csv vectorizer_transform classifier_predict).
#[local] Abbreviation analyze :=
  (analyze read_csv vectorizer_transform classifier_predict).
#[local] Abbreviation parsed_table := (parsed_table read_csv).
#[local] Abbreviation predicted :=
  (predicted vectorizer_transform classifier_predict).


(** The [geo] of a record is never falsy unless it is [None]: no empty
    string, zero or [False] is sent. *)
Theorem geo_never_falsy (request : Request) (t : list Event)
    (results : list Result) :
  analyze request = (t, inr (ok_response results)) →
  ∀ r, r ∈ results → geo r = CNone ∨ truthy (geo r) = true.
Proof.
  intros (df & predictions & t' & rows & _ & _ & _ & -> & _ & Hrows)%analyze_run r
    [i Hi]%elem_of_sort_results.
  destruct (Hrows _ _ Hi) as [_ _ _ _ _ _ _ _ _ _ _ (g & _ & ->) _ _ _].
  destruct (truthy g) eqn:E; auto.
Qed.


(** The request succeeds when the table has the twelve columns with as many
    cells each, the classifier gives every row a row whose 1s stand at label
    positions, and the four scored cells of every row are numbers; nothing is
    asked of the other cells. *)
Theorem analyze_succeeds (request : Request) (df : DataFrame)
    (predictions : list (list Z)) (n : nat) :
  parsed_table request df →
  rectangular df n →
  predicted df predictions →
  (∀ i, (i < n)%nat →
     ∃ symptom_presence,
       predictions !! i = Some symptom_presence ∧ ones_in_range symptom_presence) →
  (∀ i column, (i < n)%nat → column ∈ scored_columns →
     ∃ x f, cell_at (where_notnull df) column i = Some x ∧ to_float x = ok f) →
  ∃ results,
    analyze request
    = ([EvReadCsv; EvTransform; EvPredict; EvLogDebug (results_json results)],
       inr (ok_response results))
    ∧ length results = n.
Proof.
  intros (file & Hf & Ht & Hr) Hrect (tweet_texts & tv & Htt & Hv & Hp) Hpred Hscored.
  assert (Hcols : forallb (has_column df) required_columns = true).
  { apply forallb_has_column. intros column [l [Hl _]]%Hrect. by rewrite Hl. }
  destruct (extract_total df Hcols) as (tt' & cols & Hex).
  pose proof (extract_ok _ _ _ Hex) as Hc.
  assert (tt' = tweet_texts) as ->. { destruct Hc. congruence. }
  assert (Hcells : ∀ i column, (i < n)%nat → column ∈ required_columns →
            is_Some (cell_at (where_notnull df) column i)).
  { intros i column Hi [l [Hl Hn]]%Hrect. rewrite cell_at_where, fmap_is_Some.
    unfold cell_at. rewrite Hl. simpl. apply lookup_lt_is_Some. lia. }
  assert (Hlen : length tweet_texts = n).
  { destruct (Hrect "tweetText"%string ltac:(member)) as (l & Hl & <-).
    rewrite where_notnull_lookup, Hl in Htt. injection Htt as <-.
    by rewrite length_fmap. }
  destruct (rows_from_total cols predictions tweet_texts 0) as [rows Hrows].
  { intros k tweet Hk. pose proof (lookup_lt_Some _ _ _ Hk) as Hlt.
    rewrite Hlen in Hlt. destruct (Hpred k Hlt) as (p & Hpk & Hrange).
    eapply row_result_total; eauto. }
  exists (sort_results rows). split.
  - unfold_analyze. unfold_try. unfold_build. unfold lift, emit, ret.
    rewrite Hf, Ht. cbn [negb]. rewrite Hr. cbn [bindM app].
    rewrite Hcols. cbn [negb]. rewrite Hex. cbn [bindM app].
    rewrite Hv. cbn [bindM app]. rewrite Hp. cbn [bindM app].
    rewrite Hrows. reflexivity.
  - rewrite (Permutation_length (sort_results_perm rows)).
    apply rows_from_ok in Hrows as [-> _]. done.
Qed.

(** Columns other than the twelve required ones are ignored: two tables that
    agree on the twelve get the same response. *)
Theorem analyze_ignores_other_columns (request request' : Request)
    (df df' : DataFrame) :
  parsed_table request df →
  parsed_table request' df' →
  (∀ column, column ∈ required_columns → df' !! column = df !! column) →
  analyze request' = analyze request.
Proof.
  intros (file & Hf & Ht & Hr) (file' & Hf' & Ht' & Hr') Hagree.
  assert (Hcols : forallb (has_column df') required_columns
                  = forallb (has_column df) required_columns).
  { apply eq_true_iff_eq. rewrite !forallb_has_column.
    split; intros H column Hin.
    - rewrite <- Hagree by done. by apply H.
    - rewrite Hagree by done. by apply H. }
  assert (Hex : extract (where_notnull df') = extract (where_notnull df)).
  { unfold extract, column_tolist. rewrite !where_notnull_lookup.
    by rewrite !Hagree by member. }
  unfold_analyze. unfold_try. unfold_build. unfold lift, emit.
  rewrite Hf, Hf', Ht, Ht'. cbn [negb]. rewrite Hr, Hr'. cbn [bindM app].
  by rewrite Hcols, Hex.
Qed.

(** When no score of a 200 response is NaN, every record has a score greater
    than or equal to the score of every record after it: the first record
    has the greatest score. *)
Theorem sorted_pairwise (request : Request) (t : list Event)
    (results : list Result) :
  analyze request = (t, inr (ok_response results)) →
  (∀ r, r ∈ results → PrimFloat.is_nan (importance_score r) = false) →
  ∀ i j a b, (i < j)%nat → results !! i = Some a → results !! j = Some b →
    score_ge a b.
Proof.
  intros (df & predictions & t' & rows & _ & _ & _ & -> & _ & _)%analyze_run
    Hnan i j a b Hij Hi Hj.
  set (R := λ a b : Result,
         PrimFloat.is_nan (importance_score a) = false
         ∧ PrimFloat.is_nan (importance_score b) = false
         ∧ (importance_score a <? importance_score b)%float = false).
  assert (Htrans : Transitive R).
  { intros x y z (Hx & Hy & Hxy) (_ & Hz & Hyz).
    unfold R. split; [done | split; [done |]].
    by apply (score_ge_trans x y z). }
  assert (Hs : StronglySorted R (sort_results rows)).
  { apply Sorted_StronglySorted; [done |].
    eapply Sorted_weaken; [| apply sort_results_Sorted].
    intros x y Hx Hy Hlt. repeat split; auto. }
  destruct (StronglySorted_lookup R _ Hs i j a b Hij Hi Hj) as (Ha & Hb & Hlt).
  by apply ltb_false_leb.
Qed.
End Rows.

(** ** The further properties on the concrete instances *)

Lemma analyze_response_shape_witness :
  Demo.analyze Demo.request = (Demo.trace, inr (ok_response Demo.results))
  ∧ (ok_response Demo.results = no_file_response
     ∨ ok_response Demo.results = missing_columns_response
     ∨ ok_response Demo.results = internal_error_response
     ∨ ∃ results, ok_response Demo.results = ok_response results).
Proof.
  split; [exact demo_analyze |].
  exact (analyze_response_shape Demo.read_csv Demo.vectorizer_transform
           Demo.classifier_predict Demo.request Demo.trace
           (ok_response Demo.results) demo_analyze).
Defined.

Lemma analyze_log_witness :
  Demo.analyze Demo.request = (Demo.trace, inr (ok_response Demo.results))
  ∧ (status (ok_response Demo.results) = 200 →
       filter is_log Demo.trace = [EvLogDebug (body (ok_response Demo.results))]
       ∧ last Demo.trace = Some (EvLogDebug (body (ok_response Demo.results)))).
Proof.
  split; [exact demo_analyze |].
  exact (proj1 (analyze_log Demo.read_csv Demo.vectorizer_transform
                  Demo.classifier_predict Demo.request Demo.trace
                  (ok_response Demo.results) demo_analyze)).
Defined.

Lemma analyze_empty_filename_witness :
  Demo.analyze (Demo.upload "" "posts")
  = ([], inr {| body := JObject [("error"%string, JString "No file provided")];
                status := 400;
                content_type := "application/json" |}).
Proof.
  apply (analyze_empty_filename Demo.read_csv Demo.vectorizer_transform
           Demo.classifier_predict (Demo.upload "" "posts")
           {| filename := ""; stream := "posts" |});
    vm_compute; reflexivity.
Defined.

Lemma analyze_parser_failure_witness :
  Demo.analyze (Demo.upload "x.csv" "garbage")
  = ([EvReadCsv; EvLogError (LibraryError "ParserError")],
     inr {| body := JObject [("error"%string, JString "Internal server error")];
            status := 500;
            content_type := "application/json" |}).
Proof.
  apply (analyze_parser_failure Demo.read_csv Demo.vectorizer_transform
           Demo.classifier_predict (Demo.upload "x.csv" "garbage")
           {| filename := "x.csv"; stream := "garbage" |});
    vm_compute; reflexivity.
Defined.

Lemma analyze_model_failure_witness :
  Strict.analyze Strict.request_no_text
  = ([EvReadCsv; EvTransform; EvLogError (LibraryError "not a string")],
     inr internal_error_response).
Proof.
  apply (proj1 (analyze_model_failure Strict.read_csv Strict.vectorizer_transform
                  Demo.classifier_predict Strict.request_no_text
                  Strict.table_no_text [CStr "hello"; CNone; CStr "bye"]
                  ltac:(exists {| filename := "posts.csv";
                                  stream := "posts, no text" |};
                        repeat split; vm_compute; reflexivity)
                  ltac:(vm_compute; reflexivity)
                  ltac:(vm_compute; reflexivity))).
  vm_compute. reflexivity.
Defined.


Lemma geo_never_falsy_witness :
  Demo.analyze Demo.request = (Demo.trace, inr (ok_response Demo.results))
  ∧ ∀ r, r ∈ Demo.results → geo r = CNone ∨ truthy (geo r) = true.
Proof.
  split; [exact demo_analyze |].
  exact (geo_never_falsy Demo.read_csv Demo.vectorizer_transform
           Demo.classifier_predict Demo.request Demo.trace Demo.results
           demo_analyze).
Defined.


Lemma demo_rectangular : rectangular Demo.table 3.
Proof.
  intros column Hin. unfold required_columns in Hin.
  rewrite !elem_of_cons, elem_of_nil in Hin.
  repeat destruct Hin as [->|Hin]; try done;
    eexists; (split; [vm_compute; reflexivity | reflexivity]).
Defined.

Lemma analyze_succeeds_witness :
  ∃ results,
    Demo.analyze Demo.request
    = ([EvReadCsv; EvTransform; EvPredict; EvLogDebug (results_json results)],
       inr (ok_response results))
    ∧ length results = 3%nat.
Proof.
  apply (analyze_succeeds Demo.read_csv Demo.vectorizer_transform
           Demo.classifier_predict Demo.request Demo.table Demo.predictions 3
           demo_parsed demo_rectangular demo_predicted).
  - intros [|[|[|i]]] Hi; try lia; eexists;
      (split; [reflexivity | unfold ones_in_range; vm_compute; apply not_elem_of_nil]).
  - intros i column Hi Hin. unfold scored_columns in Hin.
    rewrite !elem_of_cons, elem_of_nil in Hin.
    destruct i as [|[|[|i]]]; try lia;
      repeat destruct Hin as [->|Hin]; try done;
      eexists _, _; (split; [vm_compute; reflexivity | vm_compute; reflexivity]).
Defined.

Lemma analyze_ignores_other_columns_witness :
  analyze Strict.read_csv Demo.vectorizer_transform Demo.classifier_predict
    Strict.request_lang
  = analyze Strict.read_csv Demo.vectorizer_transform Demo.classifier_predict
      Demo.request.
Proof.
  apply (analyze_ignores_other_columns Strict.read_csv Demo.vectorizer_transform
           Demo.classifier_predict Demo.request Strict.request_lang
           Demo.table Strict.table_lang).
  - exists {| filename := "posts.csv"; stream := "posts" |}.
    repeat split; vm_compute; reflexivity.
  - exists {| filename := "posts.csv"; stream := "posts, lang" |}.
    repeat split; vm_compute; reflexivity.
  - intros column Hin. unfold Strict.table_lang. apply lookup_insert_ne.
    intros <-. revert Hin. unfold required_columns.
    rewrite !elem_of_cons, elem_of_nil. intros H.
    repeat destruct H as [H|H]; try discriminate H. destruct H.
Defined.

Lemma sorted_pairwise_witness :
  Demo.analyze Demo.request = (Demo.trace, inr (ok_response Demo.results))
  ∧ ∀ i j a b, (i < j)%nat →
      Demo.results !! i = Some a → Demo.results !! j = Some b → score_ge a b.
Proof.
  split; [exact demo_analyze |].
  exact (sorted_pairwise Demo.read_csv Demo.vectorizer_transform
           Demo.classifier_predict Demo.request Demo.trace Demo.results
           demo_analyze demo_scores_not_nan).
Defined.
